(** * scripts/pm_slack_bridge.py: the Slack bridge of the PM agent

    A shallow embedding of the module's start-up code and of its single
    listener, [handle_mention], together with the properties the
    specification states about them.

    The listener talks to four collaborators: the chat transport ([say],
    [app.client.files_upload]), the agent ([pm_agent.initiate_chat]), the
    temporary-file layer ([tempfile.NamedTemporaryFile]) and the logger.
    Every call it makes is appended to a trace kept in the program state;
    what the collaborators answer is taken from an environment [Env], so
    that every theorem quantifies over all behaviours of the outside world. *)

From stdpp Require Import gmap strings list fin_maps.
From Stdlib Require Import ZArith Ascii.

Local Open Scope Z_scope.

(** ** Python values and exceptions *)

Module Py.

(** An instance of a subclass of [Exception]: its class name and what
    [str(e)] gives. These are the failures [except Exception] catches;
    signals outside [Exception] (cancellation of the task, interpreter
    exit) are not failures of a call and are not modelled. *)
Record exn := Exn { exc_class : string; exc_str : string }.

Definition result (A : Type) : Type := exn + A.

#[global] Instance result_ret : MRet result := λ A x, inr x.
#[global] Instance result_bind : MBind result := λ A B f r,
  match r with
  | inl e => inl e
  | inr x => f x
  end.

(** [KeyError(key)]; [str] of a [KeyError] is the [repr] of the key. The
    program only subscripts with literal keys that need no escaping. *)
Definition KeyError (key : string) : exn := Exn "KeyError" ("'" +:+ key +:+ "'").

Definition TypeError (msg : string) : exn := Exn "TypeError" msg.
Definition ValueError (msg : string) : exn := Exn "ValueError" msg.
Definition FileExistsError (msg : string) : exn := Exn "FileExistsError" msg.
Definition FileNotFoundError (msg : string) : exn := Exn "FileNotFoundError" msg.

(** [d[key]] on a dict with string keys. *)
Definition getitem {V} (d : gmap string V) (key : string) : result V :=
  match d !! key with
  | Some v => inr v
  | None => inl (KeyError key)
  end.

(** [os.getenv(key, default)]. *)
Definition getenv (environ : gmap string string) (key default : string) : string :=
  match environ !! key with
  | Some v => v
  | None => default
  end.

(** [str.lower] on the bytes of a string: the letters [A]..[Z] are mapped
    to [a]..[z], every other byte is kept. No character outside ASCII has
    a lower-case form made of the letters of ["true"], so the comparison
    of start-up is decided by this function. *)
Definition lower_ascii (c : ascii) : ascii :=
  let n := nat_of_ascii c in
  if ((65 <=? n) && (n <=? 90))%nat then ascii_of_nat (n + 32) else c.

Fixpoint lower (s : string) : string :=
  match s with
  | EmptyString => EmptyString
  | String c s' => String (lower_ascii c) (lower s')
  end.

(** What the expression [pm_agent.initiate_chat(...).summary] evaluates
    to: a [str], or an object of another type (named by [type_name]; the
    declared default of the attribute is [None]). *)
Inductive pyobj :=
| PyStr (s : string)
| PyOther (type_name : string).

End Py.
Export Py.

(** ** Module globals (lines 15-19) *)

Record Globals := {
  BOT_TOKEN : string;
  APP_TOKEN : string;
  SIGN_SECRET : string;
  CHANNEL : string;
  HALT : bool;
}.

Definition load_globals (environ : gmap string string) : result Globals :=
  bot ← getitem environ "SLACK_BOT_TOKEN";
  app ← getitem environ "SLACK_APP_TOKEN";
  sign ← getitem environ "SLACK_SIGNING_SECRET";
  let channel := getenv environ "BUILD_BOT_CHANNEL" "#build-bot" in
  let halt := bool_decide (lower (getenv environ "HALT_PIPELINE" "false") = "true") in
  mret {| BOT_TOKEN := bot; APP_TOKEN := app; SIGN_SECRET := sign;
          CHANNEL := channel; HALT := halt |}.

(** ** The outside world *)

(** The calls the listener makes on its collaborators. *)
Inductive call :=
| Say (text : string)
| InitiateChat (message : string) (max_turns : Z)
| NamedTemporaryFile (mode suffix : string) (delete : bool)
| TmpWrite (name data : string)
| TmpFlush (name : string)
| TmpClose (name : string)
| FilesUpload (channels file title initial_comment : string)
| LoggerInfo (msg : string)
| LoggerError (msg : string).

#[global] Instance call_eq_dec : EqDecision call.
Proof. solve_decision. Defined.

(** A file delivered to the chat platform. *)
Record upload := {
  up_channels : string;
  up_content : string;
  up_title : string;
  up_initial_comment : string;
}.

(** How the collaborators behave while one event is handled.
    [raises c] is the exception the call [c] ends with, if any (the
    listener never makes the same call twice for one event, and every
    event comes with its own [Env]);
    [agent message max_turns] is the outcome of
    [pm_agent.initiate_chat(message, config={"max_turns": max_turns}).summary];
    [tmp_stems] are the candidate paths of a temporary file without
    their suffix (directory, prefix and random part), in the order the
    name generator yields them (at most [TMP_MAX] of them). *)
Record Env := {
  raises : call → option exn;
  agent : string → Z → result pyobj;
  tmp_stems : list string;
}.

Record State := {
  globals : Globals;
  fs : gmap string string;          (* files on disk: path to content *)
  open_files : gmap string string;  (* open file objects: path to unflushed buffer *)
  posted : list string;             (* messages delivered to the chat *)
  uploaded : list upload;           (* files delivered to the chat *)
  calls : list call;                (* every call made so far, oldest first *)
}.

Definition set_fs (f : gmap string string → gmap string string) (st : State) : State :=
  {| globals := globals st; fs := f (fs st); open_files := open_files st;
     posted := posted st; uploaded := uploaded st; calls := calls st |}.
Definition set_open_files (f : gmap string string → gmap string string) (st : State) : State :=
  {| globals := globals st; fs := fs st; open_files := f (open_files st);
     posted := posted st; uploaded := uploaded st; calls := calls st |}.
Definition set_posted (f : list string → list string) (st : State) : State :=
  {| globals := globals st; fs := fs st; open_files := open_files st;
     posted := f (posted st); uploaded := uploaded st; calls := calls st |}.
Definition set_uploaded (f : list upload → list upload) (st : State) : State :=
  {| globals := globals st; fs := fs st; open_files := open_files st;
     posted := posted st; uploaded := f (uploaded st); calls := calls st |}.
Definition record_call (c : call) (st : State) : State :=
  {| globals := globals st; fs := fs st; open_files := open_files st;
     posted := posted st; uploaded := uploaded st; calls := calls st ++ [c] |}.

(** The calls made between two states of one run. *)
Definition emitted (st st' : State) : list call :=
  drop (length (calls st)) (calls st').

(** ** Computations: state passing with exceptions *)

Definition M (A : Type) : Type := State → State * result A.

#[global] Instance M_ret : MRet M := λ A x st, (st, inr x).
#[global] Instance M_bind : MBind M := λ A B f m st,
  match m st with
  | (st', inl e) => (st', inl e)
  | (st', inr x) => f x st'
  end.

Definition raise {A} (e : exn) : M A := λ st, (st, inl e).
Definition lift {A} (r : result A) : M A := λ st, (st, r).
Definition gets {A} (f : State → A) : M A := λ st, (st, inr (f st)).
Definition modify (f : State → State) : M unit := λ st, (f st, inr tt).

(** [try: body / except Exception as e: handler(e)]. The values of
    [exn] are the instances of [Exception], so the handler gets every
    one of them. *)
Definition try_except {A} (body : M A) (handler : exn → M A) : M A := λ st,
  match body st with
  | (st', inl e) => handler e st'
  | (st', inr x) => (st', inr x)
  end.

(** A call that returns nothing: it is recorded, then either raises what
    the environment says or has its effect [eff]. *)
Definition perform (env : Env) (c : call) (eff : State → State) : M unit :=
  modify (record_call c);;
  match raises env c with
  | Some e => raise e
  | None => modify eff
  end.

(** ** The collaborators *)

(** [await say(text)]: on success the message is delivered. *)
Definition say (env : Env) (text : string) : M unit :=
  perform env (Say text) (set_posted (λ l, l ++ [text])).

(** [pm_agent.initiate_chat(message, config={"max_turns": n}).summary]. *)
Definition initiate_chat (env : Env) (message : string) (max_turns : Z) : M pyobj :=
  modify (record_call (InitiateChat message max_turns));;
  lift (agent env message max_turns).

Definition logger_info (msg : string) : M unit := modify (record_call (LoggerInfo msg)).
Definition logger_error (msg : string) : M unit := modify (record_call (LoggerError msg)).

(** The file object [NamedTemporaryFile] returns: its [name] and whether
    it unlinks the file when closed. *)
Record TmpFile := { tmp_name : string; tmp_delete : bool }.

(** The name search of [tempfile]: the first candidate that does not
    exist yet is created (exclusively); when all are taken the search
    gives up. *)
Fixpoint mkstemp_inner (disk : gmap string string) (suffix : string)
    (stems : list string) : result string :=
  match stems with
  | [] => inl (FileExistsError "[Errno 17] No usable temporary file name found")
  | stem :: rest =>
      let path := stem +:+ suffix in
      if decide (disk !! path = None) then inr path
      else mkstemp_inner disk suffix rest
  end.

(** [tempfile.NamedTemporaryFile(mode, suffix=suffix, delete=delete)]:
    a new empty file, open for writing. *)
Definition named_temporary_file (env : Env) (mode suffix : string) (delete : bool)
    : M TmpFile :=
  let c := NamedTemporaryFile mode suffix delete in
  modify (record_call c);;
  match raises env c with
  | Some e => raise e
  | None =>
      disk ← gets fs;
      path ← lift (mkstemp_inner disk suffix (tmp_stems env));
      modify (set_fs <[path := ""]>);;
      modify (set_open_files <[path := ""]>);;
      mret {| tmp_name := path; tmp_delete := delete |}
  end.

(** The buffer of [path] reaches the disk. *)
Definition commit (path buf : string) (disk : gmap string string) : gmap string string :=
  <[path := default "" (disk !! path) +:+ buf]> disk.

(** [tmp.write(data)]: the text goes to the buffer of the file object. *)
Definition tmp_write (env : Env) (tmp : TmpFile) (data : pyobj) : M unit :=
  match data with
  | PyOther ty => raise (TypeError ("write() argument must be str, not " +:+ ty))
  | PyStr s =>
      bufs ← gets open_files;
      match bufs !! tmp_name tmp with
      | None => raise (ValueError "I/O operation on closed file.")
      | Some buf =>
          perform env (TmpWrite (tmp_name tmp) s)
            (set_open_files <[tmp_name tmp := buf +:+ s]>)
      end
  end.

(** [tmp.flush()]. *)
Definition tmp_flush (env : Env) (tmp : TmpFile) : M unit :=
  bufs ← gets open_files;
  match bufs !! tmp_name tmp with
  | None => raise (ValueError "I/O operation on closed file.")
  | Some buf =>
      perform env (TmpFlush (tmp_name tmp))
        (λ st, set_open_files <[tmp_name tmp := ""]> (set_fs (commit (tmp_name tmp) buf) st))
  end.

(** Leaving the [with] block: the file object is closed (which flushes
    its buffer; the object is closed even when that fails) and the file
    is unlinked when the object was made with [delete=True]. *)
Definition tmp_exit (env : Env) (tmp : TmpFile) : M unit :=
  let path := tmp_name tmp in
  let unlink := if tmp_delete tmp then modify (set_fs (delete path)) else mret tt in
  bufs ← gets open_files;
  match bufs !! path with
  | None => unlink
  | Some buf =>
      modify (record_call (TmpClose path));;
      modify (set_open_files (delete path));;
      match raises env (TmpClose path) with
      | Some e => unlink;; raise e
      | None => modify (set_fs (commit path buf));; unlink
      end
  end.

(** [with NamedTemporaryFile(...) as tmp: body]. *)
Definition with_tmp {A} (env : Env) (open : M TmpFile) (body : TmpFile → M A) : M A :=
  tmp ← open;
  ((λ st,
     match body tmp st with
     | (st', inr x) => (tmp_exit env tmp;; mret x) st'
     | (st', inl e) => (tmp_exit env tmp;; raise e) st'
     end) : M A).

(** [await app.client.files_upload(channels=.., file=.., title=..,
    initial_comment=..)] with a path for [file]: the file is read from
    the disk and sent. *)
Definition files_upload (env : Env) (channels file title initial_comment : string)
    : M unit :=
  let c := FilesUpload channels file title initial_comment in
  modify (record_call c);;
  disk ← gets fs;
  match disk !! file with
  | None =>
      raise (FileNotFoundError ("[Errno 2] No such file or directory: '" +:+ file +:+ "'"))
  | Some content =>
      match raises env c with
      | Some e => raise e
      | None =>
          modify (set_uploaded (λ l, l ++ [{| up_channels := channels; up_content := content;
                                              up_title := title;
                                              up_initial_comment := initial_comment |}]))
      end
  end.

(** ** The listener (lines 27-59) *)

(** The payload of an [app_mention] event: a JSON object whose members
    are objects with string members; the listener reads
    [body["event"]["text"]] and [body["event"]["user"]]. *)
Abbreviation payload := (gmap string (gmap string string)).

Definition halt_msg : string := ":octagonal_sign: Pipeline halted (`HALT_PIPELINE=true`).".
Definition ack_msg (user : string) : string :=
  ":seedling: Working on spec for <@" +:+ user +:+ "> ...".
Definition error_msg (e : exn) : string := ":x: Error generating spec: " +:+ exc_str e.
Definition upload_title : string := "spec.md".
Definition upload_comment : string := "Here is the generated spec.md :page_facing_up:".

Definition handle_mention (env : Env) (body : payload) : M unit :=
  halt ← gets (λ st, HALT (globals st));
  if halt : bool then
    say env halt_msg
  else
    text ← lift (event ← getitem body "event"; getitem event "text");
    user ← lift (event ← getitem body "event"; getitem event "user");
    say env (ack_msg user);;
    try_except
      (spec_md ← initiate_chat env text 4;
       with_tmp env (named_temporary_file env "w+" ".md" false) (λ tmp,
         tmp_write env tmp spec_md;;
         tmp_flush env tmp;;
         channel ← gets (λ st, CHANNEL (globals st));
         files_upload env channel (tmp_name tmp) upload_title upload_comment);;
       logger_info "spec.md uploaded.")
      (λ e,
         say env (error_msg e);;
         logger_error ("Error: " +:+ exc_str e)).

(** ** The process *)

(** The state the module starts serving from, once lines 15-19 have
    read the environment. The set-up of the agent and of the application
    object (lines 22-25) is the libraries' and is not part of it. *)
Definition boot (environ disk : gmap string string) : result State :=
  g ← load_globals environ;
  mret {| globals := g; fs := disk; open_files := ∅; posted := []; uploaded := [];
          calls := [] |}.

(** One delivery of an event to the listener. An exception that leaves
    the listener is contained by the framework: the process goes on. *)
Definition dispatch (st : State) (ev : Env * payload) : State :=
  (handle_mention ev.1 ev.2 st).1.

Definition serve (events : list (Env * payload)) (st : State) : State :=
  foldl dispatch st events.

(** The whole run: start-up, then the events in the order they are taken. *)
Definition run (environ disk : gmap string string) (events : list (Env * payload))
    : result State :=
  st ← boot environ disk;
  mret (serve events st).

(** ** Reading a trace *)

Definition is_say (c : call) : bool :=
  match c with Say _ => true | _ => false end.
Definition is_agent_call (c : call) : bool :=
  match c with InitiateChat _ _ => true | _ => false end.
Definition is_upload (c : call) : bool :=
  match c with FilesUpload _ _ _ _ => true | _ => false end.
Definition is_log (c : call) : bool :=
  match c with LoggerInfo _ | LoggerError _ => true | _ => false end.

(** The text of a message sent with [say]. *)
Definition said (c : call) : string :=
  match c with Say text => text | _ => "" end.

(** The payload carries the two attributes of a mention event. *)
Definition mention (body : payload) (text user : string) : Prop :=
  ∃ event, body !! "event" = Some event
           ∧ event !! "text" = Some text ∧ event !! "user" = Some user.

(** The temporary file of the summary gets created at [path], written
    and flushed without an error. *)
Definition artifact_ok (env : Env) (disk : gmap string string) (summary path : string)
    : Prop :=
  raises env (NamedTemporaryFile "w+" ".md" false) = None
  ∧ mkstemp_inner disk ".md" (tmp_stems env) = inr path
  ∧ raises env (TmpWrite path summary) = None
  ∧ raises env (TmpFlush path) = None.

(** An event that gets as far as the upload request: the acknowledgment
    is delivered, the agent returns [summary] and the temporary file at
    [path] is fine. *)
Definition summarized (env : Env) (disk : gmap string string)
    (text user summary path : string) : Prop :=
  raises env (Say (ack_msg user)) = None
  ∧ agent env text 4 = inr (PyStr summary)
  ∧ artifact_ok env disk summary path.




(** The artifact the listener uploads for a summary. *)
Definition artifact (channel summary : string) : upload :=
  {| up_channels := channel; up_content := summary; up_title := upload_title;
     up_initial_comment := upload_comment |}.

(** A value of [HALT_PIPELINE] that spells [true] in some mix of upper
    and lower case. *)
Definition spells_true (v : string) : Prop :=
  match v with
  | String a (String b (String c (String d EmptyString))) =>
      (a = "t" ∨ a = "T")%char ∧ (b = "r" ∨ b = "R")%char
      ∧ (c = "u" ∨ c = "U")%char ∧ (d = "e" ∨ d = "E")%char
  | _ => False
  end.

Definition is_tmp_create (c : call) : bool :=
  match c with NamedTemporaryFile _ _ _ => true | _ => false end.

(** ** Scenarios *)

Module Scenario.

Definition tokens : gmap string string :=
  {[ "SLACK_BOT_TOKEN" := "xoxb-1"; "SLACK_APP_TOKEN" := "xapp-1";
     "SLACK_SIGNING_SECRET" := "s3cr3t" ]}.

Definition defaults : Globals :=
  {| BOT_TOKEN := "xoxb-1"; APP_TOKEN := "xapp-1"; SIGN_SECRET := "s3cr3t";
     CHANNEL := "#build-bot"; HALT := false |}.

Definition halted : Globals :=
  {| BOT_TOKEN := "xoxb-1"; APP_TOKEN := "xapp-1"; SIGN_SECRET := "s3cr3t";
     CHANNEL := "#build-bot"; HALT := true |}.

Definition start (g : Globals) : State :=
  {| globals := g; fs := ∅; open_files := ∅; posted := []; uploaded := []; calls := [] |}.

(** The mention of the specification's example. *)
Definition login_body : payload :=
  {[ "event" := {[ "text" := "@PM-agent draft spec for login flow"; "user" := "U123" ]} ]}.

Definition login_summary : string := "## Login Flow Spec...".

(** Every collaborator answers; the agent returns the summary. *)
Definition all_well (stem : string) : Env :=
  {| raises := λ _, None;
     agent := λ _ _, inr (PyStr login_summary);
     tmp_stems := [stem] |}.

(** The agent call times out. *)
Definition timeout : exn := Exn "TimeoutError" "Request timed out.".
Definition agent_times_out : Env :=
  {| raises := λ _, None;
     agent := λ _ _, inl timeout;
     tmp_stems := ["/tmp/tmpk3x9q2a_"] |}.

(** The acknowledgment cannot be delivered. *)
Definition not_in_channel : exn := Exn "SlackApiError" "not_in_channel".
Definition ack_fails : Env :=
  {| raises := λ c, match c with
                    | Say _ => Some not_in_channel
                    | _ => None
                    end;
     agent := λ _ _, inr (PyStr login_summary);
     tmp_stems := ["/tmp/tmpk3x9q2a_"] |}.

(** No temporary file can be created. *)
Definition no_space : exn := Exn "OSError" "[Errno 28] No space left on device".
Definition disk_full : Env :=
  {| raises := λ c, match c with
                    | NamedTemporaryFile _ _ _ => Some no_space
                    | _ => None
                    end;
     agent := λ _ _, inr (PyStr login_summary);
     tmp_stems := ["/tmp/tmpk3x9q2a_"] |}.

(** The chat platform refuses the file. *)
Definition upload_refused : exn := Exn "SlackApiError" "channel_not_found".
Definition upload_rejected : Env :=
  {| raises := λ c, match c with
                    | FilesUpload _ _ _ _ => Some upload_refused
                    | _ => None
                    end;
     agent := λ _ _, inr (PyStr login_summary);
     tmp_stems := ["/tmp/tmpk3x9q2a_"] |}.

(** Closing the temporary file fails. *)
Definition io_error : exn := Exn "OSError" "[Errno 5] Input/output error".
Definition close_fails : Env :=
  {| raises := λ c, match c with
                    | TmpClose _ => Some io_error
                    | _ => None
                    end;
     agent := λ _ _, inr (PyStr login_summary);
     tmp_stems := ["/tmp/tmpk3x9q2a_"] |}.

(** The agent's result carries no summary: the attribute is [None]. *)
Definition no_summary : Env :=
  {| raises := λ _, None;
     agent := λ _ _, inr (PyOther "None");
     tmp_stems := ["/tmp/tmpk3x9q2a_"] |}.

End Scenario.

(** * Properties *)

(** ** Running the listener symbolically *)

Ltac unfold_ops :=
  unfold handle_mention, with_tmp, named_temporary_file, tmp_write, tmp_flush, tmp_exit,
    files_upload, say, initiate_chat, logger_info, logger_error, perform, try_except,
    commit, lift, gets, modify, raise, getitem;
  unfold mbind, M_bind, result_bind, mret, M_ret, result_ret.

Ltac red_state :=
  cbn [fs open_files calls posted uploaded globals record_call set_fs set_open_files
       set_posted set_uploaded tmp_name tmp_delete fst snd].

(** One step: reduce, or split on the next answer of the outside world,
    in the order the program asks for them. *)
Ltac exec_step :=
  first
  [ progress red_state
  | rewrite lookup_insert_eq
  | rewrite lookup_delete_eq
  | match goal with
    | H : ?x = _ |- context [match ?x with _ => _ end] => rewrite H
    | |- context [match @lookup _ _ (gmap _ _) _ ?k ?m with _ => _ end] =>
        destruct (m !! k) eqn:?
    | |- context [match raises ?env (Say (ack_msg ?u)) with _ => _ end] =>
        destruct (raises env (Say (ack_msg u))) eqn:?
    | |- context [match agent ?env ?t ?n with _ => _ end] =>
        destruct (agent env t n) as [?|[?|?]] eqn:?
    | |- context [match raises ?env (NamedTemporaryFile ?m ?s ?d) with _ => _ end] =>
        destruct (raises env (NamedTemporaryFile m s d)) eqn:?
    | |- context [match mkstemp_inner ?d ?s ?l with _ => _ end] =>
        destruct (mkstemp_inner d s l) eqn:?
    | |- context [match raises ?env (TmpWrite ?p ?s) with _ => _ end] =>
        destruct (raises env (TmpWrite p s)) eqn:?
    | |- context [match raises ?env (TmpFlush ?p) with _ => _ end] =>
        destruct (raises env (TmpFlush p)) eqn:?
    | |- context [match raises ?env (FilesUpload ?c ?f ?t ?i) with _ => _ end] =>
        destruct (raises env (FilesUpload c f t i)) eqn:?
    | |- context [match raises ?env (TmpClose ?p) with _ => _ end] =>
        destruct (raises env (TmpClose p)) eqn:?
    | |- context [match raises ?env ?c with _ => _ end] =>
        destruct (raises env c) eqn:?
    end ].

Ltac exec := unfold_ops; repeat exec_step.

(** The calls of a finished run, as a list. *)
Ltac norm_emitted :=
  unfold emitted; red_state;
  rewrite <- ?app_assoc; rewrite ?drop_app_length, ?drop_all; cbn [app].

(** Membership in an explicit trace. *)
Ltac elem_inv H :=
  repeat (apply elem_of_cons in H as [H|H]; [try discriminate H|]);
  try (apply elem_of_nil in H; destruct H).

(** ** Small facts *)

Lemma emitted_app st st' tr : calls st' = calls st ++ tr → emitted st st' = tr.
Proof. unfold emitted. intros ->. apply drop_app_length. Qed.

Lemma emitted_self st : emitted st st = [].
Proof. unfold emitted. apply drop_all. Qed.

Lemma ack_not_halt user : ack_msg user ≠ halt_msg.
Proof. unfold ack_msg, halt_msg. simpl. discriminate. Qed.

Lemma ack_not_error user e : ack_msg user ≠ error_msg e.
Proof. unfold ack_msg, error_msg. simpl. discriminate. Qed.

(** The name search only returns a path that is not on the disk. *)
Lemma mkstemp_inner_fresh disk suffix stems path :
  mkstemp_inner disk suffix stems = inr path → disk !! path = None.
Proof.
  induction stems as [|stem rest IH]; simpl; [discriminate|].
  case_decide as Hfree; [|exact IH].
  intros [= <-]. exact Hfree.
Qed.

(** ... and it is built from one of the candidates and the suffix. *)
Lemma mkstemp_inner_suffix disk suffix stems path :
  mkstemp_inner disk suffix stems = inr path →
  ∃ stem, stem ∈ stems ∧ path = stem +:+ suffix.
Proof.
  induction stems as [|stem rest IH]; simpl; [discriminate|].
  case_decide.
  - intros [= <-]. exists stem. split; [left|reflexivity].
  - intros Hrest. destruct (IH Hrest) as (stem' & Hin & ->).
    exists stem'. split; [by right|reflexivity].
Qed.

Lemma getitem_missing {V} (d : gmap string V) key :
  d !! key = None → getitem d key = inl (KeyError key).
Proof. unfold getitem. by intros ->. Qed.

(** With the flag set, the listener is the sending of the advisory. *)
Lemma handle_mention_halted env body st :
  HALT (globals st) = true → handle_mention env body st = say env halt_msg st.
Proof.
  intros Hhalt. unfold handle_mention.
  unfold mbind at 1. unfold M_bind at 1. unfold gets at 1.
  cbv beta iota. by rewrite Hhalt.
Qed.

Lemma say_run env text st :
  say env text st =
  match raises env (Say text) with
  | Some e => (record_call (Say text) st, inl e)
  | None => (set_posted (λ l, l ++ [text]) (record_call (Say text) st), inr tt)
  end.
Proof.
  unfold say, perform, modify, raise, mbind, M_bind.
  by destruct (raises env (Say text)).
Qed.

(** ** The halt short-circuit *)

(** C2. While the halt flag is set, the handling of an event consists of
    one call: the sending of the fixed advisory message. No
    acknowledgment is sent, the agent is not invoked and nothing is
    uploaded, whatever the payload and whatever the collaborators do. *)
Theorem halted_only_advises env body st :
  HALT (globals st) = true →
  let st' := (handle_mention env body st).1 in
  emitted st st' = [Say halt_msg]
  ∧ (∀ user, Say (ack_msg user) ∉ emitted st st')
  ∧ List.filter is_agent_call (emitted st st') = []
  ∧ List.filter is_upload (emitted st st') = []
  ∧ uploaded st' = uploaded st.
Proof.
  intros Hhalt st'.
  assert (Htrace : emitted st st' = [Say halt_msg] ∧ uploaded st' = uploaded st).
  { subst st'. rewrite handle_mention_halted, say_run by done.
    destruct (raises env (Say halt_msg)); split; try reflexivity;
      apply emitted_app; reflexivity. }
  destruct Htrace as [-> Hup].
  repeat split; try done.
  intros user Hin. apply list_elem_of_singleton in Hin.
  apply (ack_not_halt user).
  exact (f_equal (λ c, match c with Say t => t | _ => "" end) Hin).
Qed.

Lemma halted_only_advises_witness :
  HALT (globals (Scenario.start Scenario.halted)) = true
  ∧ emitted (Scenario.start Scenario.halted)
      (handle_mention (Scenario.all_well "/tmp/tmpk3x9q2a_") Scenario.login_body
         (Scenario.start Scenario.halted)).1
    = [Say halt_msg].
Proof.
  split; [reflexivity|].
  exact (proj1 (halted_only_advises (Scenario.all_well "/tmp/tmpk3x9q2a_")
                  Scenario.login_body (Scenario.start Scenario.halted) eq_refl)).
Defined.

(** ** Payloads without the attributes of a mention *)

(** C10. With the halt flag clear, a payload that lacks ["event"], or
    whose event lacks ["text"] or ["user"], makes the listener raise a
    [KeyError] that nothing catches, before it has called anything: no
    acknowledgment and no error message are sent, the state is the one
    the listener started in. *)
Theorem malformed_payload_raises_KeyError env (body : payload) st :
  HALT (globals st) = false →
  (body !! "event" = None
   ∨ ∃ event, body !! "event" = Some event
              ∧ (event !! "text" = None ∨ event !! "user" = None)) →
  (∃ key, key ∈ ["event"; "text"; "user"]
          ∧ handle_mention env body st = (st, inl (KeyError key)))
  ∧ emitted st (handle_mention env body st).1 = []
  ∧ posted (handle_mention env body st).1 = posted st.
Proof.
  intros Hclear Hbody.
  assert (Hkey : ∃ key, key ∈ ["event"; "text"; "user"]
                        ∧ handle_mention env body st = (st, inl (KeyError key))).
  { destruct Hbody as [Hev | (event & Hev & [Htext | Huser])].
    - exists "event". split; [rewrite !elem_of_cons; auto|]. by exec.
    - exists "text". split; [rewrite !elem_of_cons; auto|]. by exec.
    - destruct (event !! "text") as [text|] eqn:Htext.
      + exists "user". split; [rewrite !elem_of_cons; auto|]. by exec.
      + exists "text". split; [rewrite !elem_of_cons; auto|]. by exec. }
  split; [exact Hkey|].
  destruct Hkey as (key & _ & ->). simpl.
  split; [apply emitted_self | reflexivity].
Qed.

Lemma malformed_payload_raises_KeyError_witness :
  HALT (globals (Scenario.start Scenario.defaults)) = false
  ∧ ({[ "event" := {[ "text" := "@PM-agent hello" ]} ]} : payload) !! "event"
    = Some {[ "text" := "@PM-agent hello" ]}
  ∧ ({[ "text" := "@PM-agent hello" ]} : gmap string string) !! "user" = None
  ∧ emitted (Scenario.start Scenario.defaults)
      (handle_mention (Scenario.all_well "/tmp/tmpk3x9q2a_")
         {[ "event" := {[ "text" := "@PM-agent hello" ]} ]}
         (Scenario.start Scenario.defaults)).1 = [].
Proof.
  split; [reflexivity|]. split; [reflexivity|]. split; [reflexivity|].
  refine (proj1 (proj2 (malformed_payload_raises_KeyError
            (Scenario.all_well "/tmp/tmpk3x9q2a_")
            {[ "event" := {[ "text" := "@PM-agent hello" ]} ]}
            (Scenario.start Scenario.defaults) eq_refl _))).
  right. exists {[ "text" := "@PM-agent hello" ]}.
  split; [reflexivity|]. right. reflexivity.
Defined.

(** ** Start-up *)

(** C7. When one of the three required variables is absent, the run ends
    at start-up with the [KeyError] of that variable and no event is
    handled; when start-up succeeds, an absent [BUILD_BOT_CHANNEL] gives
    the channel ["#build-bot"] and an absent [HALT_PIPELINE] a clear halt
    flag. *)
Theorem startup_configuration (environ disk : gmap string string) events :
  (environ !! "SLACK_BOT_TOKEN" = None ∨ environ !! "SLACK_APP_TOKEN" = None
   ∨ environ !! "SLACK_SIGNING_SECRET" = None →
   ∃ key, key ∈ ["SLACK_BOT_TOKEN"; "SLACK_APP_TOKEN"; "SLACK_SIGNING_SECRET"]
          ∧ environ !! key = None
          ∧ run environ disk events = inl (KeyError key))
  ∧ ∀ g, load_globals environ = inr g →
         (environ !! "BUILD_BOT_CHANNEL" = None → CHANNEL g = "#build-bot")
         ∧ (environ !! "HALT_PIPELINE" = None → HALT g = false).
Proof.
  split.
  - intros Hmissing. unfold run, boot, load_globals, getitem.
    destruct (environ !! "SLACK_BOT_TOKEN") as [bot|] eqn:Hbot.
    2:{ exists "SLACK_BOT_TOKEN". rewrite !elem_of_cons. auto. }
    destruct (environ !! "SLACK_APP_TOKEN") as [app|] eqn:Happ.
    2:{ exists "SLACK_APP_TOKEN". rewrite !elem_of_cons. auto. }
    destruct (environ !! "SLACK_SIGNING_SECRET") as [sign|] eqn:Hsign.
    2:{ exists "SLACK_SIGNING_SECRET". rewrite !elem_of_cons. auto. }
    destruct Hmissing as [H|[H|H]]; discriminate H.
  - intros g. unfold load_globals, getitem.
    destruct (environ !! "SLACK_BOT_TOKEN"); [|discriminate].
    destruct (environ !! "SLACK_APP_TOKEN"); [|discriminate].
    destruct (environ !! "SLACK_SIGNING_SECRET"); [|discriminate].
    simpl. intros [= <-]. simpl. unfold getenv.
    split; intros ->; reflexivity.
Qed.

Lemma startup_configuration_witness :
  run (delete "SLACK_APP_TOKEN" Scenario.tokens) ∅
      [(Scenario.all_well "/tmp/tmpk3x9q2a_", Scenario.login_body)]
  = inl (KeyError "SLACK_APP_TOKEN")
  ∧ load_globals Scenario.tokens = inr Scenario.defaults
  ∧ CHANNEL Scenario.defaults = "#build-bot"
  ∧ HALT Scenario.defaults = false.
Proof.
  split; [vm_compute; reflexivity|].
  split; [vm_compute; reflexivity|].
  exact (let H := proj2 (startup_configuration Scenario.tokens ∅ [])
                    Scenario.defaults eq_refl in
         conj (proj1 H eq_refl) (proj2 H eq_refl)).
Defined.

(** ** The globals stay what start-up made them *)

Lemma handle_mention_globals env body st :
  globals (handle_mention env body st).1 = globals st.
Proof.
  destruct (HALT (globals st)) eqn:Hhalt; exec; reflexivity.
Qed.

Lemma serve_globals events st : globals (serve events st) = globals st.
Proof.
  revert st. induction events as [|[env body] events IH]; intros st; [reflexivity|].
  unfold serve in *. simpl. rewrite IH. apply handle_mention_globals.
Qed.

(** C9. The halt flag is computed once, at start-up, from the
    environment; no handling of an event changes the globals, so that
    after any number of handled events the flag an event observes is the
    one of start-up. *)
Theorem halt_flag_fixed (environ disk : gmap string string) st0 :
  boot environ disk = inr st0 →
  HALT (globals st0)
    = bool_decide (lower (getenv environ "HALT_PIPELINE" "false") = "true")
  ∧ (∀ env body st, globals (handle_mention env body st).1 = globals st)
  ∧ (∀ handled, HALT (globals (serve handled st0)) = HALT (globals st0)).
Proof.
  intros Hboot. split; [|split].
  - unfold boot, load_globals, getitem in Hboot.
    destruct (environ !! "SLACK_BOT_TOKEN"); [|discriminate].
    destruct (environ !! "SLACK_APP_TOKEN"); [|discriminate].
    destruct (environ !! "SLACK_SIGNING_SECRET"); [|discriminate].
    simpl in Hboot. by injection Hboot as <-.
  - apply handle_mention_globals.
  - intros handled. by rewrite serve_globals.
Qed.

Lemma halt_flag_fixed_witness :
  boot (<["HALT_PIPELINE" := "True"]> Scenario.tokens) ∅
  = inr (Scenario.start Scenario.halted)
  ∧ HALT (globals (serve [(Scenario.all_well "/tmp/tmpk3x9q2a_", Scenario.login_body);
                          (Scenario.agent_times_out, Scenario.login_body)]
                     (Scenario.start Scenario.halted))) = true.
Proof.
  assert (Hboot : boot (<["HALT_PIPELINE" := "True"]> Scenario.tokens) ∅
                  = inr (Scenario.start Scenario.halted)) by (vm_compute; reflexivity).
  split; [exact Hboot|].
  exact (proj2 (proj2 (halt_flag_fixed _ ∅ _ Hboot))
           [(Scenario.all_well "/tmp/tmpk3x9q2a_", Scenario.login_body);
            (Scenario.agent_times_out, Scenario.login_body)]).
Defined.

(** ** The acknowledgment *)

(** C6. With the halt flag clear, the handling of a mention event (a
    payload with the text and the user) starts with the sending of the
    acknowledgment that names the user; that message is sent exactly
    once, and every invocation of the agent comes after it. *)
Theorem acknowledged_once_before_agent env body st text user :
  HALT (globals st) = false →
  mention body text user →
  let tr := emitted st (handle_mention env body st).1 in
  (∃ rest, tr = Say (ack_msg user) :: rest ∧ Say (ack_msg user) ∉ rest)
  ∧ (∀ pre t n post, tr = pre ++ InitiateChat t n :: post → Say (ack_msg user) ∈ pre).
Proof.
  intros Hclear (event & Hevent & Htext & Huser) tr.
  assert (Hfirst : ∃ rest, tr = Say (ack_msg user) :: rest ∧ Say (ack_msg user) ∉ rest).
  { subst tr. exec; norm_emitted.
    all: eexists; split; [reflexivity|].
    all: intros Hin; elem_inv Hin.
    all: exact (ack_not_error _ _ (f_equal said Hin)). }
  split; [exact Hfirst|].
  destruct Hfirst as (rest & -> & _).
  intros [|c pre] t n post Hsplit; simpl in Hsplit.
  - discriminate Hsplit.
  - injection Hsplit as <- _. left.
Qed.

Lemma acknowledged_once_before_agent_witness :
  HALT (globals (Scenario.start Scenario.defaults)) = false
  ∧ mention Scenario.login_body "@PM-agent draft spec for login flow" "U123"
  ∧ ∃ rest,
      emitted (Scenario.start Scenario.defaults)
        (handle_mention Scenario.agent_times_out Scenario.login_body
           (Scenario.start Scenario.defaults)).1
      = Say ":seedling: Working on spec for <@U123> ..." :: rest
      ∧ Say (ack_msg "U123") ∉ rest.
Proof.
  assert (Hmention : mention Scenario.login_body
                       "@PM-agent draft spec for login flow" "U123").
  { eexists. split; [reflexivity|]. split; reflexivity. }
  split; [reflexivity|]. split; [exact Hmention|].
  exact (proj1 (acknowledged_once_before_agent Scenario.agent_times_out
                  Scenario.login_body (Scenario.start Scenario.defaults)
                  _ _ eq_refl Hmention)).
Defined.

(** ** A failing agent *)

(** C4. With the halt flag clear, when the agent is invoked for an event
    and the invocation raises [e], no upload is requested and nothing is
    delivered, and the messages sent are the acknowledgment and one
    error message, which ends with [str(e)]. *)
Theorem agent_error_reported env body st t n e :
  HALT (globals st) = false →
  InitiateChat t n ∈ emitted st (handle_mention env body st).1 →
  agent env t n = inl e →
  let st' := (handle_mention env body st).1 in
  List.filter is_upload (emitted st st') = []
  ∧ uploaded st' = uploaded st
  ∧ ∃ user,
      List.filter is_say (emitted st st')
      = [Say (ack_msg user); Say (":x: Error generating spec: " +:+ exc_str e)]
      ∧ (raises env (Say (":x: Error generating spec: " +:+ exc_str e)) = None →
         posted st' = posted st ++ [ack_msg user;
                                    ":x: Error generating spec: " +:+ exc_str e]).
Proof.
  intros Hclear Hin Hraise st'. subst st'.
  revert Hin. exec; norm_emitted.
  all: intros Hin; elem_inv Hin; simplify_eq; try congruence.
  all: match goal with
       | H1 : ?x = inl ?a, H2 : ?x = inl ?b |- _ => rewrite H1 in H2; simplify_eq
       end.
  all: split; [reflexivity|]; split; [reflexivity|].
  all: eexists; split; [reflexivity|].
  all: intros Hsent; unfold error_msg in *.
  all: first [congruence | by rewrite <- app_assoc].
Qed.

Lemma agent_error_reported_witness :
  HALT (globals (Scenario.start Scenario.defaults)) = false
  ∧ agent Scenario.agent_times_out "@PM-agent draft spec for login flow" 4
    = inl Scenario.timeout
  ∧ List.filter is_upload
      (emitted (Scenario.start Scenario.defaults)
         (handle_mention Scenario.agent_times_out Scenario.login_body
            (Scenario.start Scenario.defaults)).1) = []
  ∧ ∃ user,
      List.filter is_say
        (emitted (Scenario.start Scenario.defaults)
           (handle_mention Scenario.agent_times_out Scenario.login_body
              (Scenario.start Scenario.defaults)).1)
      = [Say (ack_msg user); Say ":x: Error generating spec: Request timed out."].
Proof.
  split; [reflexivity|]. split; [reflexivity|].
  assert (Hin : InitiateChat "@PM-agent draft spec for login flow" 4
                ∈ emitted (Scenario.start Scenario.defaults)
                    (handle_mention Scenario.agent_times_out Scenario.login_body
                       (Scenario.start Scenario.defaults)).1).
  { vm_compute. right. left. }
  pose proof (agent_error_reported Scenario.agent_times_out Scenario.login_body
                (Scenario.start Scenario.defaults) _ _ Scenario.timeout
                eq_refl Hin eq_refl) as (Hno & _ & user & Hsay & _).
  split; [exact Hno | exists user; exact Hsay].
Defined.

(** ** The artifact *)

Lemma append_empty_r (s : string) : s +:+ "" = s.
Proof.
  induction s as [|c s IH]; [reflexivity|].
  change (String c (s +:+ "") = String c s). by f_equal.
Qed.

Lemma append_empty_l (s : string) : "" +:+ s = s.
Proof. reflexivity. Qed.

(** The agent is only invoked for a mention whose acknowledgment went
    through, with the text of the mention and four turns. *)
Lemma agent_invoked_inv env body st t n :
  HALT (globals st) = false →
  InitiateChat t n ∈ emitted st (handle_mention env body st).1 →
  n = 4 ∧ ∃ user, mention body t user ∧ raises env (Say (ack_msg user)) = None.
Proof.
  intros Hclear. exec; norm_emitted.
  all: intros Hin; elem_inv Hin; simplify_eq.
  all: split; [reflexivity|]; eexists; split; [|eassumption].
  all: eexists; split; [eassumption|]; split; assumption.
Qed.

(** What a summary becomes when the temporary file is fine: one upload
    request for the file, which holds the summary and stays on the disk;
    the artifact is delivered when the request is accepted. *)
Lemma upload_of_summary env body st text user summary path :
  HALT (globals st) = false →
  mention body text user →
  raises env (Say (ack_msg user)) = None →
  agent env text 4 = inr (PyStr summary) →
  artifact_ok env (fs st) summary path →
  let st' := (handle_mention env body st).1 in
  let request := FilesUpload (CHANNEL (globals st)) path upload_title upload_comment in
  List.filter is_upload (emitted st st') = [request]
  ∧ fs st' !! path = Some summary
  ∧ (∀ p, p ≠ path → fs st' !! p = fs st !! p)
  ∧ uploaded st' = match raises env request with
                   | None => uploaded st ++ [artifact (CHANNEL (globals st)) summary]
                   | Some _ => uploaded st
                   end.
Proof.
  intros Hclear (event & Hevent & Htext & Huser) Hack Hagent (Hopen & Hname & Hwrite & Hflush).
  exec; norm_emitted.
  all: simpl; rewrite ?append_empty_l, ?append_empty_r.
  all: repeat split; try reflexivity.
  all: try (rewrite ?lookup_insert_eq; reflexivity).
  all: intros p Hp; by rewrite ?lookup_insert_ne.
Qed.

(** C3 as stated fails. A summary alone does not give an upload: when
    no temporary file can be created, the agent's summary is dropped and
    only the error is reported. *)
Lemma summary_without_upload :
  let st := Scenario.start Scenario.defaults in
  let st' := (handle_mention Scenario.disk_full Scenario.login_body st).1 in
  InitiateChat "@PM-agent draft spec for login flow" 4 ∈ emitted st st'
  ∧ agent Scenario.disk_full "@PM-agent draft spec for login flow" 4
    = inr (PyStr Scenario.login_summary)
  ∧ List.filter is_upload (emitted st st') = []
  ∧ uploaded st' = []
  ∧ posted st' = [":seedling: Working on spec for <@U123> ...";
                  ":x: Error generating spec: [Errno 28] No space left on device"].
Proof.
  vm_compute. split; [right; left|]. repeat split; reflexivity.
Qed.

(** C3 (amended). With the halt flag clear, when the agent is invoked
    for an event and returns the summary, and the temporary file is
    created, written and flushed without an error, exactly one upload is
    requested: of that file, to the configured channel, with the title
    ["spec.md"] and the fixed comment. The file holds exactly the
    summary, and when the request is accepted exactly one artifact, with
    that content, is delivered. *)
Theorem summary_uploaded_once env body st t n summary path :
  HALT (globals st) = false →
  InitiateChat t n ∈ emitted st (handle_mention env body st).1 →
  agent env t n = inr (PyStr summary) →
  artifact_ok env (fs st) summary path →
  let st' := (handle_mention env body st).1 in
  let request := FilesUpload (CHANNEL (globals st)) path "spec.md"
                   "Here is the generated spec.md :page_facing_up:" in
  List.filter is_upload (emitted st st') = [request]
  ∧ fs st' !! path = Some summary
  ∧ (raises env request = None →
     uploaded st' = uploaded st ++ [artifact (CHANNEL (globals st)) summary]).
Proof.
  intros Hclear Hin Hagent Hfile st' request.
  destruct (agent_invoked_inv _ _ _ _ _ Hclear Hin) as (-> & user & Hmention & Hack).
  destruct (upload_of_summary _ _ _ _ _ _ _ Hclear Hmention Hack Hagent Hfile)
    as (Hrequest & Hcontent & _ & Hdelivered).
  split; [exact Hrequest|]. split; [exact Hcontent|].
  intros Haccepted. fold st' in Hdelivered. fold request in Haccepted.
  unfold upload_title, upload_comment in Hdelivered. fold request in Hdelivered.
  by rewrite Haccepted in Hdelivered.
Qed.

(** The example of the specification: the acknowledgment names the user
    and one upload to the default channel carries the summary. *)
Lemma summary_uploaded_once_witness :
  let st := Scenario.start Scenario.defaults in
  let env := Scenario.all_well "/tmp/tmpk3x9q2a_" in
  let st' := (handle_mention env Scenario.login_body st).1 in
  HALT (globals st) = false
  ∧ artifact_ok env (fs st) "## Login Flow Spec..." "/tmp/tmpk3x9q2a_.md"
  ∧ head (emitted st st') = Some (Say ":seedling: Working on spec for <@U123> ...")
  ∧ List.filter is_upload (emitted st st')
    = [FilesUpload "#build-bot" "/tmp/tmpk3x9q2a_.md" "spec.md"
         "Here is the generated spec.md :page_facing_up:"]
  ∧ uploaded st'
    = [{| up_channels := "#build-bot"; up_content := "## Login Flow Spec...";
          up_title := "spec.md";
          up_initial_comment := "Here is the generated spec.md :page_facing_up:" |}].
Proof.
  intros st env st'.
  assert (Hfile : artifact_ok env (fs st) "## Login Flow Spec..." "/tmp/tmpk3x9q2a_.md").
  { repeat split; vm_compute; reflexivity. }
  assert (Hin : InitiateChat "@PM-agent draft spec for login flow" 4 ∈ emitted st st').
  { vm_compute. right. left. }
  pose proof (summary_uploaded_once env Scenario.login_body st _ _ _ _
                eq_refl Hin eq_refl Hfile) as (Hrequest & _ & Hdelivered).
  split; [reflexivity|]. split; [exact Hfile|]. split; [vm_compute; reflexivity|].
  split; [exact Hrequest|]. exact (Hdelivered eq_refl).
Defined.

(** ** Failures *)




(** ** The temporary file *)

(** C5 as stated fails. After a handling in which everything went
    through, the temporary file is still on the disk, with the summary
    in it. *)
Lemma temporary_file_left_behind :
  let st := Scenario.start Scenario.defaults in
  let run := handle_mention (Scenario.all_well "/tmp/tmpk3x9q2a_") Scenario.login_body st in
  run.2 = inr tt
  ∧ uploaded run.1 = [artifact "#build-bot" Scenario.login_summary]
  ∧ fs st !! "/tmp/tmpk3x9q2a_.md" = None
  ∧ fs run.1 !! "/tmp/tmpk3x9q2a_.md" = Some Scenario.login_summary
  ∧ fs run.1 !! "/tmp/tmpk3x9q2a_.md" ≠ None.
Proof. vm_compute. repeat split; (reflexivity || discriminate). Qed.

(** C5 (amended). The listener removes no file. When its handling
    reaches the creation of the temporary file at [path], that file is
    closed when the listener is left, whatever became of the upload, but
    it stays on the disk; when the summary was written to it and flushed
    without an error, it still holds the summary. *)
Theorem temporary_file_closed_but_kept env body st :
  let st' := (handle_mention env body st).1 in
  (∀ p, is_Some (fs st !! p) → is_Some (fs st' !! p))
  ∧ (∀ path,
       NamedTemporaryFile "w+" ".md" false ∈ emitted st st' →
       raises env (NamedTemporaryFile "w+" ".md" false) = None →
       mkstemp_inner (fs st) ".md" (tmp_stems env) = inr path →
       is_Some (fs st' !! path) ∧ open_files st' !! path = None)
  ∧ (∀ path data,
       TmpWrite path data ∈ emitted st st' →
       raises env (TmpWrite path data) = None →
       raises env (TmpFlush path) = None →
       fs st' !! path = Some data).
Proof.
  intros st'. subst st'. split; [|split].
  - intros p. destruct (HALT (globals st)) eqn:Hhalt; exec.
    all: rewrite ?lookup_insert_is_Some'; tauto.
  - intros path Hin Hopen Hname. revert Hin.
    destruct (HALT (globals st)) eqn:Hhalt; exec; norm_emitted.
    all: intros Hin; elem_inv Hin.
    all: split; [rewrite ?lookup_insert_is_Some'; auto | by rewrite ?lookup_delete_eq].
  - intros path data.
    destruct (HALT (globals st)) eqn:Hhalt; exec; norm_emitted.
    all: intros Hin; elem_inv Hin; simplify_eq; try congruence.
    all: intros _ _; rewrite ?lookup_insert_eq.
    all: by rewrite ?append_empty_l, ?append_empty_r.
Qed.

Lemma temporary_file_closed_but_kept_witness :
  let st := Scenario.start Scenario.defaults in
  let env := Scenario.all_well "/tmp/tmpk3x9q2a_" in
  let st' := (handle_mention env Scenario.login_body st).1 in
  TmpWrite "/tmp/tmpk3x9q2a_.md" "## Login Flow Spec..." ∈ emitted st st'
  ∧ fs st' !! "/tmp/tmpk3x9q2a_.md" = Some "## Login Flow Spec..."
  ∧ open_files st' !! "/tmp/tmpk3x9q2a_.md" = None.
Proof.
  intros st env st'.
  assert (Hwrite : TmpWrite "/tmp/tmpk3x9q2a_.md" "## Login Flow Spec..."
                   ∈ emitted st st').
  { vm_compute. do 3 right. left. }
  assert (Hopen : NamedTemporaryFile "w+" ".md" false ∈ emitted st st').
  { vm_compute. do 2 right. left. }
  pose proof (temporary_file_closed_but_kept env Scenario.login_body st)
    as (_ & Hclosed & Hcontent).
  split; [exact Hwrite|].
  split; [exact (Hcontent _ _ Hwrite eq_refl eq_refl)|].
  exact (proj2 (Hclosed "/tmp/tmpk3x9q2a_.md" Hopen eq_refl eq_refl)).
Defined.

(** ** The same mention twice *)

(** A handling only adds calls to the trace. *)
Lemma handle_mention_calls env body st :
  calls (handle_mention env body st).1
  = calls st ++ emitted st (handle_mention env body st).1.
Proof.
  destruct (HALT (globals st)) eqn:Hhalt; exec; norm_emitted.
  all: by rewrite <- ?app_assoc, ?app_nil_r.
Qed.

Lemma emitted_trans st st1 st2 tr1 tr2 :
  calls st1 = calls st ++ tr1 → calls st2 = calls st1 ++ tr2 →
  emitted st st2 = tr1 ++ tr2.
Proof.
  intros H1 H2. apply emitted_app. by rewrite H2, H1, <- app_assoc.
Qed.

(** C8 as stated fails. Two handlings of the same payload, the agent
    returning its summary both times, do not always give two uploads:
    here the second handling finds the disk full, and one upload is all
    there is. *)
Lemma second_upload_missing :
  let st := Scenario.start Scenario.defaults in
  let st1 := (handle_mention (Scenario.all_well "/tmp/tmpk3x9q2a_")
                Scenario.login_body st).1 in
  let st2 := (handle_mention Scenario.disk_full Scenario.login_body st1).1 in
  HALT (globals st) = false
  ∧ List.filter is_agent_call (emitted st st2)
    = [InitiateChat "@PM-agent draft spec for login flow" 4;
       InitiateChat "@PM-agent draft spec for login flow" 4]
  ∧ agent (Scenario.all_well "/tmp/tmpk3x9q2a_") "@PM-agent draft spec for login flow" 4
    = inr (PyStr Scenario.login_summary)
  ∧ agent Scenario.disk_full "@PM-agent draft spec for login flow" 4
    = inr (PyStr Scenario.login_summary)
  ∧ List.filter is_upload (emitted st st2)
    = [FilesUpload "#build-bot" "/tmp/tmpk3x9q2a_.md" "spec.md"
         "Here is the generated spec.md :page_facing_up:"]
  ∧ uploaded st2 = [artifact "#build-bot" Scenario.login_summary].
Proof. vm_compute. repeat split; reflexivity. Qed.

(** C8 (amended). With the halt flag clear, two handlings of the same
    payload, in each of which the agent returns a summary and the
    temporary file is fine, give two upload requests, one per handling:
    each is for the temporary file of its handling, which holds the
    summary of its own agent invocation; the two files are different and
    the second handling leaves the file of the first as it was. When both
    requests are accepted two artifacts are delivered. Nothing is
    deduplicated. *)
Theorem repeated_mention_uploads_twice env1 env2 body st text user s1 s2 p1 p2 :
  HALT (globals st) = false →
  mention body text user →
  let channel := CHANNEL (globals st) in
  let st1 := (handle_mention env1 body st).1 in
  let st2 := (handle_mention env2 body st1).1 in
  let request1 := FilesUpload channel p1 upload_title upload_comment in
  let request2 := FilesUpload channel p2 upload_title upload_comment in
  summarized env1 (fs st) text user s1 p1 →
  summarized env2 (fs st1) text user s2 p2 →
  List.filter is_upload (emitted st st2) = [request1; request2]
  ∧ p1 ≠ p2
  ∧ fs st2 !! p1 = Some s1
  ∧ fs st2 !! p2 = Some s2
  ∧ (raises env1 request1 = None → raises env2 request2 = None →
     uploaded st2 = uploaded st ++ [artifact channel s1; artifact channel s2]).
Proof.
  intros Hclear Hmention channel st1 st2 request1 request2
    (Hack1 & Hagent1 & Hfile1) (Hack2 & Hagent2 & Hfile2).
  pose proof (handle_mention_globals env1 body st) as Hglobals. fold st1 in Hglobals.
  assert (Hclear1 : HALT (globals st1) = false) by by rewrite Hglobals.
  destruct (upload_of_summary _ _ _ _ _ _ _ Hclear Hmention Hack1 Hagent1 Hfile1)
    as (Hreq1 & Hfs1 & _ & Hdel1).
  destruct (upload_of_summary _ _ _ _ _ _ _ Hclear1 Hmention Hack2 Hagent2 Hfile2)
    as (Hreq2 & Hfs2 & Hother2 & Hdel2).
  fold st1 in Hreq1, Hfs1, Hdel1. fold st2 in Hreq2, Hfs2, Hother2, Hdel2.
  rewrite Hglobals in Hreq2, Hdel2.
  fold channel in Hreq1, Hdel1, Hreq2, Hdel2.
  fold request1 in Hreq1, Hdel1. fold request2 in Hreq2, Hdel2.
  assert (Hne : p1 ≠ p2).
  { intros ->. destruct Hfile2 as (_ & Hname & _).
    apply mkstemp_inner_fresh in Hname. congruence. }
  split.
  { rewrite (emitted_trans st st1 st2 _ _ (handle_mention_calls env1 body st)
               (handle_mention_calls env2 body st1)).
    rewrite List.filter_app. fold st1 st2. by rewrite Hreq1, Hreq2. }
  split; [exact Hne|].
  split; [rewrite Hother2 by done; exact Hfs1|].
  split; [exact Hfs2|].
  intros Hup1 Hup2. rewrite Hup1 in Hdel1. rewrite Hup2 in Hdel2.
  by rewrite Hdel2, Hdel1, <- app_assoc.
Qed.

Lemma repeated_mention_uploads_twice_witness :
  let st := Scenario.start Scenario.defaults in
  let env1 := Scenario.all_well "/tmp/tmpk3x9q2a_" in
  let env2 := Scenario.all_well "/tmp/tmp7h_w0zrd" in
  let st1 := (handle_mention env1 Scenario.login_body st).1 in
  let st2 := (handle_mention env2 Scenario.login_body st1).1 in
  HALT (globals st) = false
  ∧ mention Scenario.login_body "@PM-agent draft spec for login flow" "U123"
  ∧ summarized env1 (fs st) "@PM-agent draft spec for login flow" "U123"
      Scenario.login_summary "/tmp/tmpk3x9q2a_.md"
  ∧ summarized env2 (fs st1) "@PM-agent draft spec for login flow" "U123"
      Scenario.login_summary "/tmp/tmp7h_w0zrd.md"
  ∧ List.filter is_upload (emitted st st2)
    = [FilesUpload "#build-bot" "/tmp/tmpk3x9q2a_.md" upload_title upload_comment;
       FilesUpload "#build-bot" "/tmp/tmp7h_w0zrd.md" upload_title upload_comment]
  ∧ uploaded st2 = [artifact "#build-bot" Scenario.login_summary;
                    artifact "#build-bot" Scenario.login_summary].
Proof.
  intros st env1 env2 st1 st2.
  assert (Hmention : mention Scenario.login_body
                       "@PM-agent draft spec for login flow" "U123").
  { eexists. split; [reflexivity|]. split; reflexivity. }
  assert (H1 : summarized env1 (fs st) "@PM-agent draft spec for login flow" "U123"
                 Scenario.login_summary "/tmp/tmpk3x9q2a_.md").
  { repeat split; vm_compute; reflexivity. }
  assert (H2 : summarized env2 (fs st1) "@PM-agent draft spec for login flow" "U123"
                 Scenario.login_summary "/tmp/tmp7h_w0zrd.md").
  { repeat split; vm_compute; reflexivity. }
  split; [reflexivity|]. split; [exact Hmention|].
  split; [exact H1|]. split; [exact H2|].
  pose proof (repeated_mention_uploads_twice env1 env2 Scenario.login_body st
                _ _ _ _ _ _ eq_refl Hmention H1 H2) as (Hreq & _ & _ & _ & Hdel).
  split; [exact Hreq | exact (Hdel eq_refl eq_refl)].
Defined.

(** * Further properties of the module *)

(** ** Start-up (lines 15-19) *)

Lemma lower_ascii_letter (c lo up : ascii) :
  lower_ascii lo = lo → lower_ascii up = lo →
  (∀ x, lower_ascii x = lo → x = lo ∨ x = up) →
  lower_ascii c = lo ↔ c = lo ∨ c = up.
Proof.
  intros Hlo Hup Honly. split; [apply Honly|]. by intros [-> | ->].
Qed.

Ltac by_cases_on_byte :=
  let x := fresh "x" in
  intros x; destruct x as [[] [] [] [] [] [] [] []]; vm_compute;
  intros H; first [discriminate H | by left | by right].

Lemma lower_ascii_t c : lower_ascii c = "t"%char ↔ (c = "t" ∨ c = "T")%char.
Proof. apply lower_ascii_letter; [reflexivity..|by_cases_on_byte]. Qed.
Lemma lower_ascii_r c : lower_ascii c = "r"%char ↔ (c = "r" ∨ c = "R")%char.
Proof. apply lower_ascii_letter; [reflexivity..|by_cases_on_byte]. Qed.
Lemma lower_ascii_u c : lower_ascii c = "u"%char ↔ (c = "u" ∨ c = "U")%char.
Proof. apply lower_ascii_letter; [reflexivity..|by_cases_on_byte]. Qed.
Lemma lower_ascii_e c : lower_ascii c = "e"%char ↔ (c = "e" ∨ c = "E")%char.
Proof. apply lower_ascii_letter; [reflexivity..|by_cases_on_byte]. Qed.

Lemma lower_true v : lower v = "true" ↔ spells_true v.
Proof.
  destruct v as [|a [|b [|c [|d [|x v]]]]]; simpl; try (split; [discriminate|tauto]).
  rewrite <- lower_ascii_t, <- lower_ascii_r, <- lower_ascii_u, <- lower_ascii_e.
  split; [intros [= -> -> -> ->]; done|].
  intros (-> & -> & -> & ->). reflexivity.
Qed.

Lemma load_globals_inv environ g :
  load_globals environ = inr g →
  environ !! "SLACK_BOT_TOKEN" = Some (BOT_TOKEN g)
  ∧ environ !! "SLACK_APP_TOKEN" = Some (APP_TOKEN g)
  ∧ environ !! "SLACK_SIGNING_SECRET" = Some (SIGN_SECRET g)
  ∧ CHANNEL g = getenv environ "BUILD_BOT_CHANNEL" "#build-bot"
  ∧ HALT g = bool_decide (lower (getenv environ "HALT_PIPELINE" "false") = "true").
Proof.
  unfold load_globals, getitem.
  destruct (environ !! "SLACK_BOT_TOKEN"); [|discriminate].
  destruct (environ !! "SLACK_APP_TOKEN"); [|discriminate].
  destruct (environ !! "SLACK_SIGNING_SECRET"); [|discriminate].
  simpl. by intros [= <-].
Qed.

(** X1. The pipeline starts halted exactly when [HALT_PIPELINE] is set
    to the word [true] in any mix of cases; any other value ("1", "yes",
    "on", the word with a space around it) leaves the flag clear, as
    does an absent variable. *)
Theorem halt_only_for_true environ g :
  load_globals environ = inr g →
  HALT g = true ↔ ∃ v, environ !! "HALT_PIPELINE" = Some v ∧ spells_true v.
Proof.
  intros Hload. apply load_globals_inv in Hload as (_ & _ & _ & _ & ->).
  rewrite bool_decide_eq_true, lower_true. unfold getenv.
  destruct (environ !! "HALT_PIPELINE") as [v|].
  - split; [by exists v|]. by intros (? & [= <-] & ?).
  - split; [intros []|]. by intros (? & [=] & _).
Qed.

Lemma halt_only_for_true_witness :
  load_globals (<["HALT_PIPELINE" := "tRuE"]> Scenario.tokens) = inr Scenario.halted
  ∧ HALT Scenario.halted = true
  ∧ load_globals (<["HALT_PIPELINE" := "1"]> Scenario.tokens) = inr Scenario.defaults
  ∧ ¬ ∃ v, (<["HALT_PIPELINE" := "1"]> Scenario.tokens) !! "HALT_PIPELINE" = Some v
           ∧ spells_true v.
Proof.
  assert (H1 : load_globals (<["HALT_PIPELINE" := "tRuE"]> Scenario.tokens)
               = inr Scenario.halted) by (vm_compute; reflexivity).
  assert (H2 : load_globals (<["HALT_PIPELINE" := "1"]> Scenario.tokens)
               = inr Scenario.defaults) by (vm_compute; reflexivity).
  split; [exact H1|].
  split; [apply (halt_only_for_true _ _ H1); exists "tRuE"; split;
          [reflexivity | repeat split; auto]|].
  split; [exact H2|].
  intros Hv. apply (halt_only_for_true _ _ H2) in Hv. discriminate Hv.
Defined.

(** X2. The reading of the environment (lines 15-19) raises no
    [KeyError] exactly when the three required variables are present;
    the token globals then hold the values of the variables as they are,
    and a [BUILD_BOT_CHANNEL] that is set, even to the empty string, is
    the channel: the default only stands in for an absent variable. *)
Theorem environment_read_iff environ :
  ((∃ g, load_globals environ = inr g) ↔
   is_Some (environ !! "SLACK_BOT_TOKEN") ∧ is_Some (environ !! "SLACK_APP_TOKEN")
   ∧ is_Some (environ !! "SLACK_SIGNING_SECRET"))
  ∧ ∀ g, load_globals environ = inr g →
         environ !! "SLACK_BOT_TOKEN" = Some (BOT_TOKEN g)
         ∧ environ !! "SLACK_APP_TOKEN" = Some (APP_TOKEN g)
         ∧ environ !! "SLACK_SIGNING_SECRET" = Some (SIGN_SECRET g)
         ∧ ∀ c, environ !! "BUILD_BOT_CHANNEL" = Some c → CHANNEL g = c.
Proof.
  split.
  - split.
    + intros (g & Hload). apply load_globals_inv in Hload as (-> & -> & -> & _).
      repeat split; eexists; reflexivity.
    + intros ((bot & Hbot) & (app & Happ) & (sign & Hsign)).
      unfold load_globals, getitem. rewrite Hbot, Happ, Hsign. simpl. by eexists.
  - intros g Hload. apply load_globals_inv in Hload as (Hbot & Happ & Hsign & Hch & _).
    repeat split; try assumption.
    intros c Hc. rewrite Hch. unfold getenv. by rewrite Hc.
Qed.

Lemma environment_read_iff_witness :
  let environ : gmap string string := <["BUILD_BOT_CHANNEL" := ""]> Scenario.tokens in
  ∃ g, load_globals environ = inr g ∧ BOT_TOKEN g = "xoxb-1" ∧ CHANNEL g = "".
Proof.
  intros environ.
  destruct (proj2 (proj1 (environment_read_iff environ))) as (g & Hload).
  { repeat split; eexists; reflexivity. }
  exists g. split; [exact Hload|].
  destruct (proj2 (environment_read_iff environ) g Hload) as (Hbot & _ & _ & Hch).
  split; [|exact (Hch "" eq_refl)].
  assert (environ !! "SLACK_BOT_TOKEN" = Some "xoxb-1") as Hb by reflexivity.
  rewrite Hb in Hbot. by injection Hbot.
Defined.

(** ** What one handling does and never does (lines 28-59) *)

(** X3. One handling makes at most two [say] calls, invokes the agent
    at most once, creates at most one temporary file, requests at most
    one upload and writes at most one log entry. *)
Theorem handling_is_bounded env body st :
  let tr := emitted st (handle_mention env body st).1 in
  (length (List.filter is_say tr) ≤ 2
   ∧ length (List.filter is_agent_call tr) ≤ 1
   ∧ length (List.filter is_tmp_create tr) ≤ 1
   ∧ length (List.filter is_upload tr) ≤ 1
   ∧ length (List.filter is_log tr) ≤ 1)%nat.
Proof.
  intros tr. subst tr.
  destruct (HALT (globals st)) eqn:Hhalt; exec; norm_emitted.
  all: simpl; lia.
Qed.

(** X4. The agent only ever gets the text of the mention, as it came in
    the payload, with a limit of four turns. *)
Theorem agent_gets_mention_text env body st t n :
  InitiateChat t n ∈ emitted st (handle_mention env body st).1 →
  n = 4 ∧ ∃ event, body !! "event" = Some event ∧ event !! "text" = Some t.
Proof.
  destruct (HALT (globals st)) eqn:Hhalt.
  - rewrite handle_mention_halted, say_run by done.
    destruct (raises env (Say halt_msg)); simpl.
    all: rewrite (emitted_app _ _ [Say halt_msg]) by reflexivity.
    all: intros Hin; elem_inv Hin.
  - intros Hin.
    destruct (agent_invoked_inv _ _ _ _ _ Hhalt Hin) as (-> & user & (ev & ? & ? & ?) & _).
    split; [reflexivity|]. by exists ev.
Qed.

Lemma agent_gets_mention_text_witness :
  let st := Scenario.start Scenario.defaults in
  let tr := emitted st (handle_mention Scenario.agent_times_out Scenario.login_body st).1 in
  InitiateChat "@PM-agent draft spec for login flow" 4 ∈ tr
  ∧ ∃ event, Scenario.login_body !! "event" = Some event
             ∧ event !! "text" = Some "@PM-agent draft spec for login flow".
Proof.
  intros st tr.
  assert (Hin : InitiateChat "@PM-agent draft spec for login flow" 4 ∈ tr).
  { vm_compute. right. left. }
  split; [exact Hin|].
  exact (proj2 (agent_gets_mention_text _ _ _ _ _ Hin)).
Defined.

(** X6. An error (an instance of [Exception]) leaves the listener
    only in two ways: as the [KeyError] of a payload without its
    attributes, before anything was called, or as the error of a [say]
    that was the last call made. The errors the agent, the temporary
    file or the upload raise never leave it. Signals outside
    [Exception], which [except Exception] lets through, are not errors
    in this sense. *)
Theorem only_say_or_KeyError_escapes env body st e :
  (handle_mention env body st).2 = inl e →
  let st' := (handle_mention env body st).1 in
  (∃ key, e = KeyError key ∧ st' = st)
  ∨ (∃ msg, raises env (Say msg) = Some e ∧ last (emitted st st') = Some (Say msg)).
Proof.
  destruct (HALT (globals st)) eqn:Hhalt; exec; norm_emitted.
  all: simpl; intros [= <-].
  all: first [ left; eexists; split; reflexivity
             | right; eexists; split; [eassumption | reflexivity] ].
Qed.

Lemma only_say_or_KeyError_escapes_witness :
  let st := Scenario.start Scenario.defaults in
  let run := handle_mention Scenario.ack_fails Scenario.login_body st in
  run.2 = inl Scenario.not_in_channel
  ∧ ∃ msg, raises Scenario.ack_fails (Say msg) = Some Scenario.not_in_channel
           ∧ last (emitted st run.1) = Some (Say msg).
Proof.
  intros st run.
  assert (Hres : run.2 = inl Scenario.not_in_channel) by (vm_compute; reflexivity).
  split; [exact Hres|].
  destruct (only_say_or_KeyError_escapes _ _ _ _ Hres) as [(key & Hkey & _) | Hsay].
  - discriminate Hkey.
  - exact Hsay.
Defined.

(** ** Uploads (lines 44-55) *)

(** X7. Every upload the listener requests is for a file whose name is
    one of the candidate names with the suffix [.md], goes to the
    configured channel and carries the title ["spec.md"] and the fixed
    comment. *)
Theorem upload_request_shape env body st c :
  c ∈ emitted st (handle_mention env body st).1 →
  is_upload c = true →
  ∃ stem, stem ∈ tmp_stems env
          ∧ c = FilesUpload (CHANNEL (globals st)) (stem +:+ ".md") "spec.md"
                  "Here is the generated spec.md :page_facing_up:".
Proof.
  destruct (HALT (globals st)) eqn:Hhalt; exec; norm_emitted.
  all: intros Hin; elem_inv Hin; subst c; simpl; try discriminate.
  all: intros _.
  all: match goal with
       | H : mkstemp_inner _ _ _ = inr _ |- _ =>
           apply mkstemp_inner_suffix in H as (stem & Hstem & ->)
       end.
  all: by exists stem.
Qed.

Lemma upload_request_shape_witness :
  let st := Scenario.start Scenario.defaults in
  let c := FilesUpload "#build-bot" "/tmp/tmpk3x9q2a_.md" "spec.md"
             "Here is the generated spec.md :page_facing_up:" in
  c ∈ emitted st (handle_mention Scenario.upload_rejected Scenario.login_body st).1
  ∧ ∃ stem, stem ∈ tmp_stems Scenario.upload_rejected
            ∧ c = FilesUpload "#build-bot" (stem +:+ ".md") "spec.md"
                    "Here is the generated spec.md :page_facing_up:".
Proof.
  intros st c.
  assert (Hin : c ∈ emitted st
                  (handle_mention Scenario.upload_rejected Scenario.login_body st).1).
  { vm_compute. do 5 right. left. }
  split; [exact Hin|].
  exact (upload_request_shape _ _ _ _ Hin eq_refl).
Defined.

(** X8. What a handling delivers as a file is nothing, or one artifact
    whose content is exactly the summary the agent returned for the text
    it was invoked with; files delivered before are left as they are. *)
Theorem only_the_summary_is_delivered env body st :
  let st' := (handle_mention env body st).1 in
  uploaded st' = uploaded st
  ∨ ∃ t summary,
      InitiateChat t 4 ∈ emitted st st'
      ∧ agent env t 4 = inr (PyStr summary)
      ∧ uploaded st' = uploaded st ++ [artifact (CHANNEL (globals st)) summary].
Proof.
  intros st'. subst st'.
  destruct (HALT (globals st)) eqn:Hhalt; exec; norm_emitted.
  all: first
    [ by left
    | right; do 2 eexists; split; [|split; [eassumption|]];
      [ rewrite !elem_of_cons; auto
      | simpl; by rewrite ?append_empty_l, ?append_empty_r ] ].
Qed.

(** X9. The entry ["spec.md uploaded."] is only logged by a handling
    that delivered its artifact, sent no error message and returns
    normally. *)
Theorem success_log_means_delivered env body st :
  LoggerInfo "spec.md uploaded." ∈ emitted st (handle_mention env body st).1 →
  let st' := (handle_mention env body st).1 in
  (handle_mention env body st).2 = inr tt
  ∧ length (List.filter is_say (emitted st st')) = 1%nat
  ∧ ∃ summary, uploaded st' = uploaded st ++ [artifact (CHANNEL (globals st)) summary].
Proof.
  destruct (HALT (globals st)) eqn:Hhalt; exec; norm_emitted.
  all: intros Hin; elem_inv Hin.
  all: simpl; split; [reflexivity|]; split; [reflexivity|].
  all: eexists; by rewrite ?append_empty_l, ?append_empty_r.
Qed.

Lemma success_log_means_delivered_witness :
  let st := Scenario.start Scenario.defaults in
  let run := handle_mention (Scenario.all_well "/tmp/tmpk3x9q2a_") Scenario.login_body st in
  LoggerInfo "spec.md uploaded." ∈ emitted st run.1
  ∧ run.2 = inr tt
  ∧ ∃ summary, uploaded run.1 = uploaded st ++ [artifact "#build-bot" summary].
Proof.
  intros st run.
  assert (Hin : LoggerInfo "spec.md uploaded." ∈ emitted st run.1).
  { vm_compute. do 7 right. left. }
  destruct (success_log_means_delivered _ _ _ Hin) as (Hres & _ & Hup).
  split; [exact Hin|]. split; [exact Hres | exact Hup].
Defined.

(** X10. When the upload request is refused with [e] (and the file
    closes), nothing is delivered, the user is told [str(e)] in the one
    error message, no success is logged, and the temporary file stays on
    the disk with the summary. *)
Theorem refused_upload_reported env body st text user summary path e :
  HALT (globals st) = false →
  mention body text user →
  summarized env (fs st) text user summary path →
  raises env (FilesUpload (CHANNEL (globals st)) path upload_title upload_comment)
  = Some e →
  raises env (TmpClose path) = None →
  let st' := (handle_mention env body st).1 in
  let tr := emitted st st' in
  uploaded st' = uploaded st
  ∧ List.filter is_say tr = [Say (ack_msg user); Say (error_msg e)]
  ∧ (LoggerInfo "spec.md uploaded." ∉ tr)
  ∧ fs st' !! path = Some summary.
Proof.
  intros Hclear (event & Hevent & Htext & Huser)
    (Hack & Hagent & Hopen & Hname & Hwrite & Hflush) Hrefused Hclose.
  exec; norm_emitted.
  all: split; [reflexivity|]; split; [reflexivity|]; split.
  all: try (intros Hin; elem_inv Hin).
  all: rewrite ?lookup_insert_eq; simpl.
  all: by rewrite ?append_empty_l, ?append_empty_r.
Qed.

Lemma refused_upload_reported_witness :
  let st := Scenario.start Scenario.defaults in
  let st' := (handle_mention Scenario.upload_rejected Scenario.login_body st).1 in
  HALT (globals st) = false
  ∧ summarized Scenario.upload_rejected (fs st) "@PM-agent draft spec for login flow"
      "U123" Scenario.login_summary "/tmp/tmpk3x9q2a_.md"
  ∧ uploaded st' = []
  ∧ List.filter is_say (emitted st st')
    = [Say ":seedling: Working on spec for <@U123> ...";
       Say ":x: Error generating spec: channel_not_found"]
  ∧ fs st' !! "/tmp/tmpk3x9q2a_.md" = Some Scenario.login_summary.
Proof.
  intros st st'.
  assert (Hmention : mention Scenario.login_body
                       "@PM-agent draft spec for login flow" "U123").
  { eexists. split; [reflexivity|]. split; reflexivity. }
  assert (Hsum : summarized Scenario.upload_rejected (fs st)
                   "@PM-agent draft spec for login flow" "U123"
                   Scenario.login_summary "/tmp/tmpk3x9q2a_.md").
  { repeat split; vm_compute; reflexivity. }
  split; [reflexivity|]. split; [exact Hsum|].
  destruct (refused_upload_reported Scenario.upload_rejected Scenario.login_body st
              _ _ _ _ Scenario.upload_refused eq_refl Hmention Hsum eq_refl eq_refl)
    as (Hup & Hsay & _ & Hfile).
  split; [exact Hup|]. split; [exact Hsay | exact Hfile].
Defined.

(** X11. When the upload was accepted but closing the temporary file
    then fails with [e], the artifact has been delivered and the user is
    told of an error all the same: the error message with [str(e)] is
    sent and no success is logged. *)
Theorem close_failure_after_delivery env body st text user summary path e :
  HALT (globals st) = false →
  mention body text user →
  summarized env (fs st) text user summary path →
  raises env (FilesUpload (CHANNEL (globals st)) path upload_title upload_comment)
  = None →
  raises env (TmpClose path) = Some e →
  let st' := (handle_mention env body st).1 in
  let tr := emitted st st' in
  uploaded st' = uploaded st ++ [artifact (CHANNEL (globals st)) summary]
  ∧ List.filter is_say tr = [Say (ack_msg user); Say (error_msg e)]
  ∧ (LoggerInfo "spec.md uploaded." ∉ tr).
Proof.
  intros Hclear (event & Hevent & Htext & Huser)
    (Hack & Hagent & Hopen & Hname & Hwrite & Hflush) Haccepted Hclose.
  exec; norm_emitted.
  all: split; [simpl; by rewrite ?append_empty_l, ?append_empty_r|].
  all: split; [reflexivity|].
  all: intros Hin; elem_inv Hin.
Qed.

Lemma close_failure_after_delivery_witness :
  let st := Scenario.start Scenario.defaults in
  let st' := (handle_mention Scenario.close_fails Scenario.login_body st).1 in
  HALT (globals st) = false
  ∧ summarized Scenario.close_fails (fs st) "@PM-agent draft spec for login flow"
      "U123" Scenario.login_summary "/tmp/tmpk3x9q2a_.md"
  ∧ uploaded st' = [artifact "#build-bot" Scenario.login_summary]
  ∧ List.filter is_say (emitted st st')
    = [Say ":seedling: Working on spec for <@U123> ...";
       Say ":x: Error generating spec: [Errno 5] Input/output error"].
Proof.
  intros st st'.
  assert (Hmention : mention Scenario.login_body
                       "@PM-agent draft spec for login flow" "U123").
  { eexists. split; [reflexivity|]. split; reflexivity. }
  assert (Hsum : summarized Scenario.close_fails (fs st)
                   "@PM-agent draft spec for login flow" "U123"
                   Scenario.login_summary "/tmp/tmpk3x9q2a_.md").
  { repeat split; vm_compute; reflexivity. }
  split; [reflexivity|]. split; [exact Hsum|].
  destruct (close_failure_after_delivery Scenario.close_fails Scenario.login_body st
              _ _ _ _ Scenario.io_error eq_refl Hmention Hsum eq_refl eq_refl)
    as (Hup & Hsay & _).
  split; [exact Hup | exact Hsay].
Defined.

(** ** The summary and the disk (lines 41-46) *)

(** X12. When the agent's result carries no [str] as its summary, the
    temporary file is created and closed empty and stays on the disk,
    nothing is written to it, no upload is requested, and the error
    message the user gets is the [TypeError] of the write. *)
Theorem summary_not_a_string env body st text user ty path :
  HALT (globals st) = false →
  mention body text user →
  raises env (Say (ack_msg user)) = None →
  agent env text 4 = inr (PyOther ty) →
  raises env (NamedTemporaryFile "w+" ".md" false) = None →
  mkstemp_inner (fs st) ".md" (tmp_stems env) = inr path →
  raises env (TmpClose path) = None →
  let st' := (handle_mention env body st).1 in
  let tr := emitted st st' in
  List.filter is_upload tr = []
  ∧ (∀ data, TmpWrite path data ∉ tr)
  ∧ fs st' !! path = Some ""
  ∧ List.filter is_say tr
    = [Say (ack_msg user);
       Say (":x: Error generating spec: write() argument must be str, not " +:+ ty)].
Proof.
  intros Hclear (event & Hevent & Htext & Huser) Hack Hagent Hopen Hname Hclose.
  exec; norm_emitted.
  all: split; [reflexivity|]; split; [intros data Hin; elem_inv Hin|].
  all: split; [by rewrite ?lookup_insert_eq | reflexivity].
Qed.

Lemma summary_not_a_string_witness :
  let st := Scenario.start Scenario.defaults in
  let st' := (handle_mention Scenario.no_summary Scenario.login_body st).1 in
  HALT (globals st) = false
  ∧ agent Scenario.no_summary "@PM-agent draft spec for login flow" 4
    = inr (PyOther "None")
  ∧ mkstemp_inner (fs st) ".md" (tmp_stems Scenario.no_summary)
    = inr "/tmp/tmpk3x9q2a_.md"
  ∧ fs st' !! "/tmp/tmpk3x9q2a_.md" = Some ""
  ∧ List.filter is_say (emitted st st')
    = [Say ":seedling: Working on spec for <@U123> ...";
       Say ":x: Error generating spec: write() argument must be str, not None"].
Proof.
  intros st st'.
  assert (Hmention : mention Scenario.login_body
                       "@PM-agent draft spec for login flow" "U123").
  { eexists. split; [reflexivity|]. split; reflexivity. }
  assert (Hname : mkstemp_inner (fs st) ".md" (tmp_stems Scenario.no_summary)
                  = inr "/tmp/tmpk3x9q2a_.md") by (vm_compute; reflexivity).
  split; [reflexivity|]. split; [reflexivity|]. split; [exact Hname|].
  destruct (summary_not_a_string Scenario.no_summary Scenario.login_body st
              _ _ "None" _ eq_refl Hmention eq_refl eq_refl eq_refl Hname eq_refl)
    as (_ & _ & Hfile & Hsay).
  split; [exact Hfile | exact Hsay].
Defined.

(** X13. A handling leaves every file that was on the disk with the
    content it had, and adds at most one file, under a name that was not
    taken. *)
Theorem existing_files_untouched env body st :
  let st' := (handle_mention env body st).1 in
  (∀ p content, fs st !! p = Some content → fs st' !! p = Some content)
  ∧ (fs st' = fs st
     ∨ ∃ path content, fs st !! path = None ∧ fs st' = <[path := content]> (fs st)).
Proof.
  intros st'. subst st'.
  destruct (HALT (globals st)) eqn:Hhalt; exec.
  all: try (split; [done | by left]).
  all: match goal with
       | H : mkstemp_inner _ _ _ = inr ?q |- _ =>
           pose proof (mkstemp_inner_fresh _ _ _ _ H) as Hfresh
       end.
  all: split;
    [ intros p content Hp;
      rewrite ?lookup_insert_ne by (intros ->; congruence); exact Hp
    | right; do 2 eexists; split; [exact Hfresh|];
      rewrite ?insert_insert_eq; reflexivity ].
Qed.

(** ** The run of the process (lines 61-67) *)

Lemma handle_mention_keeps_closed env body st p :
  open_files st !! p = None → open_files (handle_mention env body st).1 !! p = None.
Proof.
  intros Hp. destruct (HALT (globals st)) eqn:Hhalt; exec.
  all: try exact Hp.
  all: rewrite lookup_delete; case_decide; [reflexivity|].
  all: by rewrite ?lookup_insert_ne.
Qed.

(** X14. While the pipeline is halted, serving any events sends one
    advisory per event and does nothing else: no other call is made, no
    file is created and nothing is uploaded. *)
Theorem halted_run_only_advises events st :
  HALT (globals st) = true →
  calls (serve events st) = calls st ++ replicate (length events) (Say halt_msg)
  ∧ fs (serve events st) = fs st
  ∧ uploaded (serve events st) = uploaded st.
Proof.
  revert st. induction events as [|[env body] events IH]; intros st Hhalt.
  { simpl. by rewrite app_nil_r. }
  unfold serve in *. cbn [foldl length replicate]. unfold dispatch at 2 4 6. cbn [fst snd].
  assert (Hstep : calls (handle_mention env body st).1 = calls st ++ [Say halt_msg]
                  ∧ fs (handle_mention env body st).1 = fs st
                  ∧ uploaded (handle_mention env body st).1 = uploaded st
                  ∧ HALT (globals (handle_mention env body st).1) = true).
  { rewrite handle_mention_halted, say_run by done.
    destruct (raises env (Say halt_msg)); simpl; by repeat split. }
  destruct Hstep as (Hcalls & Hfs & Hup & Hhalt').
  destruct (IH _ Hhalt') as (IHcalls & IHfs & IHup).
  rewrite IHcalls, IHfs, IHup, Hcalls, Hfs, Hup.
  by rewrite <- app_assoc.
Qed.

Lemma halted_run_only_advises_witness :
  let st := Scenario.start Scenario.halted in
  let events := [(Scenario.all_well "/tmp/tmpk3x9q2a_", Scenario.login_body);
                 (Scenario.ack_fails, (∅ : payload))] in
  HALT (globals st) = true
  ∧ calls (serve events st) = [Say halt_msg; Say halt_msg]
  ∧ fs (serve events st) = ∅.
Proof.
  intros st events.
  destruct (halted_run_only_advises events st eq_refl) as (Hcalls & Hfs & _).
  split; [reflexivity|]. split; [exact Hcalls | exact Hfs].
Defined.

(** X15. After start-up and any number of handled events, no temporary
    file is left open: every file object a handling opens is closed
    before the handling ends, on every path. *)
Theorem no_file_left_open (environ disk : gmap string string) st0 events p :
  boot environ disk = inr st0 →
  open_files (serve events st0) !! p = None.
Proof.
  intros Hboot.
  assert (Hstart : open_files st0 !! p = None).
  { unfold boot in Hboot. destruct (load_globals environ); [discriminate|].
    simpl in Hboot. by injection Hboot as <-. }
  clear Hboot. revert st0 Hstart.
  induction events as [|[env body] events IH]; intros st0 Hstart; [exact Hstart|].
  unfold serve in *. cbn [foldl]. apply IH.
  unfold dispatch. cbn [fst snd]. by apply handle_mention_keeps_closed.
Qed.

Lemma no_file_left_open_witness :
  boot Scenario.tokens ∅ = inr (Scenario.start Scenario.defaults)
  ∧ open_files (serve [(Scenario.close_fails, Scenario.login_body);
                       (Scenario.upload_rejected, Scenario.login_body)]
                  (Scenario.start Scenario.defaults)) !! "/tmp/tmpk3x9q2a_.md" = None.
Proof.
  assert (Hboot : boot Scenario.tokens ∅ = inr (Scenario.start Scenario.defaults))
    by (vm_compute; reflexivity).
  split; [exact Hboot|].
  exact (no_file_left_open _ _ _ _ _ Hboot).
Defined.

Lemma handle_mention_disk_step env body st :
  (∀ p content, fs st !! p = Some content →
                fs (handle_mention env body st).1 !! p = Some content)
  ∧ (size (fs (handle_mention env body st).1) ≤ S (size (fs st)))%nat.
Proof.
  destruct (HALT (globals st)) eqn:Hhalt; exec.
  all: try (split; [done | lia]).
  all: match goal with
       | H : mkstemp_inner _ _ _ = inr ?q |- _ =>
           pose proof (mkstemp_inner_fresh _ _ _ _ H) as Hfresh
       end.
  all: split;
    [ intros p content Hp;
      rewrite ?lookup_insert_ne by (intros ->; congruence); exact Hp
    | rewrite ?insert_insert_eq, map_size_insert_None by exact Hfresh; lia ].
Qed.

(** X16. Through a whole run no file on the disk is removed or
    changed, and the disk gains at most one file per handled event: the
    temporary files of earlier events are still there when later ones
    are handled. *)
Theorem run_keeps_files events st :
  (∀ p content, fs st !! p = Some content → fs (serve events st) !! p = Some content)
  ∧ (size (fs (serve events st)) ≤ size (fs st) + length events)%nat.
Proof.
  revert st. induction events as [|[env body] events IH]; intros st.
  { simpl. split; [done | lia]. }
  unfold serve in *. cbn [foldl length].
  destruct (handle_mention_disk_step env body st) as (Hkeep & Hsize).
  change (foldl dispatch (dispatch st (env, body)) events)
    with (foldl dispatch (handle_mention env body st).1 events).
  destruct (IH (handle_mention env body st).1) as (IHkeep & IHsize).
  split; [intros p content Hp; by apply IHkeep, Hkeep | lia].
Qed.

Lemma run_keeps_files_witness :
  let st := Scenario.start Scenario.defaults in
  let st1 := serve [(Scenario.all_well "/tmp/tmpk3x9q2a_", Scenario.login_body)] st in
  let events := [(Scenario.upload_rejected, Scenario.login_body);
                 (Scenario.all_well "/tmp/tmp7h_w0zrd", Scenario.login_body)] in
  fs st1 !! "/tmp/tmpk3x9q2a_.md" = Some Scenario.login_summary
  ∧ fs (serve events st1) !! "/tmp/tmpk3x9q2a_.md" = Some Scenario.login_summary.
Proof.
  intros st st1 events.
  assert (Hfile : fs st1 !! "/tmp/tmpk3x9q2a_.md" = Some Scenario.login_summary)
    by (vm_compute; reflexivity).
  split; [exact Hfile|].
  exact (proj1 (run_keeps_files events st1) _ _ Hfile).
Defined.

(** X17. An error is only logged by a handling whose error message
    reached the chat: the entry is ["Error: "] followed by [str(e)] of
    the failure that was reported, nothing was logged as a success, and
    the listener returns normally. *)
Theorem error_log_means_reported env body st msg :
  LoggerError msg ∈ emitted st (handle_mention env body st).1 →
  let st' := (handle_mention env body st).1 in
  (handle_mention env body st).2 = inr tt
  ∧ (LoggerInfo "spec.md uploaded." ∉ emitted st st')
  ∧ ∃ e, msg = "Error: " +:+ exc_str e
         ∧ raises env (Say (error_msg e)) = None
         ∧ last (posted st') = Some (error_msg e).
Proof.
  destruct (HALT (globals st)) eqn:Hhalt; exec; norm_emitted.
  all: intros Hin; elem_inv Hin; injection Hin as ->.
  all: split; [reflexivity|]; split; [intros Hin; elem_inv Hin|].
  all: eexists; split; [|split; [eassumption|]].
  all: first [reflexivity | by rewrite last_app].
Qed.

Lemma error_log_means_reported_witness :
  let st := Scenario.start Scenario.defaults in
  let run := handle_mention Scenario.agent_times_out Scenario.login_body st in
  LoggerError "Error: Request timed out." ∈ emitted st run.1
  ∧ run.2 = inr tt
  ∧ ∃ e, "Error: Request timed out." = "Error: " +:+ exc_str e
         ∧ raises Scenario.agent_times_out (Say (error_msg e)) = None
         ∧ last (posted run.1) = Some (error_msg e).
Proof.
  intros st run.
  assert (Hin : LoggerError "Error: Request timed out." ∈ emitted st run.1).
  { vm_compute. do 3 right. left. }
  destruct (error_log_means_reported _ _ _ _ Hin) as (Hres & _ & Herr).
  split; [exact Hin|]. split; [exact Hres | exact Herr].
Defined.
